(** * mqtt_moisture_reporter: constants of [mqtt_moisture_reporter.h],
    and the settings store and command router they configure. *)

From Stdlib Require Import ZArith String List Lia Bool.
Import ListNotations.
Open Scope Z_scope.
Open Scope string_scope.

(** ** Macros of mqtt_moisture_reporter.h, as C [int] constants. *)

Definition VALID_SETTINGS_FLAG : Z := 0xDAB0.
Definition SSID_SIZE : Z := 100.
Definition PASSWORD_SIZE : Z := 50.
Definition ADDRESS_SIZE : Z := 30.
Definition USERNAME_SIZE : Z := 50.
Definition MQTT_CLIENTID_SIZE : Z := 25.
Definition MQTT_TOPIC_SIZE : Z := 150.
Definition MQTT_TOPIC_MOISTURE : string := "percent".
Definition MQTT_TOPIC_READING : string := "value".
Definition MQTT_TOPIC_PERIOD : string := "period".
Definition MQTT_CLIENT_ID_ROOT : string := "UltrasonicDetector".
Definition MQTT_TOPIC_COMMAND_REQUEST : string := "command".
Definition MQTT_PAYLOAD_SETTINGS_COMMAND : string := "settings".
Definition MQTT_PAYLOAD_RESET_PULSE_COMMAND : string := "resetPulseCounter".
Definition MQTT_PAYLOAD_REBOOT_COMMAND : string := "reboot".
Definition MQTT_PAYLOAD_VERSION_COMMAND : string := "version".
Definition MQTT_PAYLOAD_STATUS_COMMAND : string := "status".
(** [#define JSON_STATUS_SIZE SSID_SIZE+PASSWORD_SIZE+USERNAME_SIZE+MQTT_TOPIC_SIZE+50] *)
Definition JSON_STATUS_SIZE : Z :=
  SSID_SIZE + PASSWORD_SIZE + USERNAME_SIZE + MQTT_TOPIC_SIZE + 50.
Definition PUBLISH_DELAY : Z := 400.

Definition MQTT_CONNECTION_REFUSED : Z := -2.
Definition MQTT_CONNECTION_TIMEOUT : Z := -1.
Definition MQTT_SUCCESS : Z := 0.
Definition MQTT_UNACCEPTABLE_PROTOCOL_VERSION : Z := 1.
Definition MQTT_IDENTIFIER_REJECTED : Z := 2.
Definition MQTT_SERVER_UNAVAILABLE : Z := 3.
Definition MQTT_BAD_USER_NAME_OR_PASSWORD : Z := 4.
Definition MQTT_NOT_AUTHORIZED : Z := 5.

(** ** Bounded C strings.
    A [char buf[N]] holds at most [N - 1] characters and its terminating
    NUL; copying a longer string into it keeps the first [N - 1]
    characters (strlcpy / strncpy followed by [buf[N-1] = 0]). *)

Definition cstr_bytes (s : string) : Z := Z.of_nat (String.length s) + 1.

Definition bounded_copy (cap : Z) (s : string) : string :=
  substring 0 (Z.to_nat (cap - 1)) s.

(** The full topic of a suffix: the device base topic followed by it. *)
Definition full_topic (base suffix : string) : string := base ++ suffix.

Definition topic_suffixes : list string :=
  [MQTT_TOPIC_MOISTURE; MQTT_TOPIC_READING; MQTT_TOPIC_PERIOD;
   MQTT_TOPIC_COMMAND_REQUEST].

(** ** Connection results of the MQTT client (ConnectionSupervisor). *)

Inductive MqttResult :=
| ConnectionRefused
| ConnectionTimeout
| Success
| UnacceptableProtocolVersion
| IdentifierRejected
| ServerUnavailable
| BadUserNameOrPassword
| NotAuthorized.

Definition mqtt_code (r : MqttResult) : Z :=
  match r with
  | ConnectionRefused => MQTT_CONNECTION_REFUSED
  | ConnectionTimeout => MQTT_CONNECTION_TIMEOUT
  | Success => MQTT_SUCCESS
  | UnacceptableProtocolVersion => MQTT_UNACCEPTABLE_PROTOCOL_VERSION
  | IdentifierRejected => MQTT_IDENTIFIER_REJECTED
  | ServerUnavailable => MQTT_SERVER_UNAVAILABLE
  | BadUserNameOrPassword => MQTT_BAD_USER_NAME_OR_PASSWORD
  | NotAuthorized => MQTT_NOT_AUTHORIZED
  end.

Definition all_mqtt_results : list MqttResult :=
  [ConnectionRefused; ConnectionTimeout; Success; UnacceptableProtocolVersion;
   IdentifierRejected; ServerUnavailable; BadUserNameOrPassword; NotAuthorized].

(** Translation of a raw client return code into the taxonomy. *)
Definition mqtt_of_code (z : Z) : option MqttResult :=
  find (fun r => Z.eqb (mqtt_code r) z) all_mqtt_results.

(** ** SettingsStore *)

(** The persisted record; the storage block has the same layout, so a
    raw block read back from storage is also a [Settings] value whose
    fields may hold anything. *)
Record Settings := mkSettings {
  validityMarker : Z;
  networkName : string;
  networkPassword : string;
  brokerAddress : string;
  brokerUsername : string;
  clientIdentifier : string;
  reportingPeriodSeconds : positive
}.

Inductive Field :=
| FNetworkName | FNetworkPassword | FBrokerAddress | FBrokerUsername
| FClientIdentifier.

(** One write to the storage block. *)
Inductive StoreWrite :=
| WriteString (f : Field) (v : string)
| WritePeriod (p : positive)
| WriteMarker (m : Z).

Definition apply_write (st : Settings) (w : StoreWrite) : Settings :=
  match w with
  | WriteString FNetworkName v =>
      mkSettings (validityMarker st) v (networkPassword st) (brokerAddress st)
        (brokerUsername st) (clientIdentifier st) (reportingPeriodSeconds st)
  | WriteString FNetworkPassword v =>
      mkSettings (validityMarker st) (networkName st) v (brokerAddress st)
        (brokerUsername st) (clientIdentifier st) (reportingPeriodSeconds st)
  | WriteString FBrokerAddress v =>
      mkSettings (validityMarker st) (networkName st) (networkPassword st) v
        (brokerUsername st) (clientIdentifier st) (reportingPeriodSeconds st)
  | WriteString FBrokerUsername v =>
      mkSettings (validityMarker st) (networkName st) (networkPassword st)
        (brokerAddress st) v (clientIdentifier st) (reportingPeriodSeconds st)
  | WriteString FClientIdentifier v =>
      mkSettings (validityMarker st) (networkName st) (networkPassword st)
        (brokerAddress st) (brokerUsername st) v (reportingPeriodSeconds st)
  | WritePeriod p =>
      mkSettings (validityMarker st) (networkName st) (networkPassword st)
        (brokerAddress st) (brokerUsername st) (clientIdentifier st) p
  | WriteMarker m =>
      mkSettings m (networkName st) (networkPassword st) (brokerAddress st)
        (brokerUsername st) (clientIdentifier st) (reportingPeriodSeconds st)
  end.

(** Modelled from the spec: [save] of the SettingsStore (§4.1), which is
    not part of the header. Every string field is truncated to its
    buffer, all fields are written, and the validity marker last. *)
Definition save_writes (s : Settings) : list StoreWrite :=
  [WriteString FNetworkName (bounded_copy SSID_SIZE (networkName s));
   WriteString FNetworkPassword (bounded_copy PASSWORD_SIZE (networkPassword s));
   WriteString FBrokerAddress (bounded_copy ADDRESS_SIZE (brokerAddress s));
   WriteString FBrokerUsername (bounded_copy USERNAME_SIZE (brokerUsername s));
   WriteString FClientIdentifier
     (bounded_copy MQTT_CLIENTID_SIZE (clientIdentifier s));
   WritePeriod (reportingPeriodSeconds s);
   WriteMarker VALID_SETTINGS_FLAG].

Definition save (s : Settings) (st : Settings) : Settings :=
  fold_left apply_write (save_writes s) st.

(** A save cut short after its first [k] writes (power loss). *)
Definition save_interrupted (k : nat) (s : Settings) (st : Settings) : Settings :=
  fold_left apply_write (firstn k (save_writes s)) st.

(** [s] with every string field truncated to its bound and the marker set. *)
Definition truncate_settings (s : Settings) : Settings :=
  mkSettings VALID_SETTINGS_FLAG
    (bounded_copy SSID_SIZE (networkName s))
    (bounded_copy PASSWORD_SIZE (networkPassword s))
    (bounded_copy ADDRESS_SIZE (brokerAddress s))
    (bounded_copy USERNAME_SIZE (brokerUsername s))
    (bounded_copy MQTT_CLIENTID_SIZE (clientIdentifier s))
    (reportingPeriodSeconds s).

(** Marker of a record that was not written by [save]. *)
Definition UNCONFIGURED_MARKER : Z := 0.

Section Defaults.
  (** Compile-time defaults and the per-device client id suffix. *)
  Variables default_ssid default_password default_address default_username
    device_suffix : string.
  Variable default_period : positive.

  (** Modelled from the spec: the default client identifier, the root
      name followed by the per-device suffix in a [MQTT_CLIENTID_SIZE]
      buffer (§3, §4.3). *)
Definition default_client_id : string :=
    bounded_copy MQTT_CLIENTID_SIZE (MQTT_CLIENT_ID_ROOT ++ device_suffix).

Definition default_settings : Settings :=
    mkSettings UNCONFIGURED_MARKER default_ssid default_password
      default_address default_username default_client_id default_period.

  (** Modelled from the spec: [load] of the SettingsStore (§4.1), which is
      not part of the header: the stored block if its marker is the
      sentinel, the defaults otherwise. *)
Definition load (st : Settings) : Settings :=
    if Z.eqb (validityMarker st) VALID_SETTINGS_FLAG then st
    else default_settings.

Definition configured (st : Settings) : bool :=
    Z.eqb (validityMarker (load st)) VALID_SETTINGS_FLAG.
End Defaults.

(** ** CommandRouter *)

Inductive Command :=
| ShowSettings
| ResetCounter
| Reboot
| ShowVersion
| ShowStatus
| Unknown (payload : string).

Definition recognized_payloads : list string :=
  [MQTT_PAYLOAD_SETTINGS_COMMAND; MQTT_PAYLOAD_RESET_PULSE_COMMAND;
   MQTT_PAYLOAD_REBOOT_COMMAND; MQTT_PAYLOAD_VERSION_COMMAND;
   MQTT_PAYLOAD_STATUS_COMMAND].

(** Modelled from the spec: classification of a command payload (§3,
    §6); payloads are compared byte for byte ([strcmp]). *)
Definition parse_command (p : string) : Command :=
  if p =? MQTT_PAYLOAD_SETTINGS_COMMAND then ShowSettings
  else if p =? MQTT_PAYLOAD_RESET_PULSE_COMMAND then ResetCounter
  else if p =? MQTT_PAYLOAD_REBOOT_COMMAND then Reboot
  else if p =? MQTT_PAYLOAD_VERSION_COMMAND then ShowVersion
  else if p =? MQTT_PAYLOAD_STATUS_COMMAND then ShowStatus
  else Unknown p.

(** In-memory device state: the loaded settings and the ReportingState. *)
Record DeviceState := mkDeviceState {
  settings : Settings;
  pulseCount : Z;
  lastReading : Z
}.

(** Externally visible effects of the control loop. *)
Inductive Effect :=
| Publish (topic payload : string)
| Delay (ms : Z)
| Restart.

(** Every publish is followed by the settle delay. *)
Definition publish_settled (topic payload : string) : list Effect :=
  [Publish topic payload; Delay PUBLISH_DELAY].

Section Router.
  (** The response topic and the renderings of the response documents. *)
  Variable response_topic : string.
  Variable describe : Settings -> string.
  Variable version_string : string.
  Variable status_document : Z -> positive -> string.
  Variable reset_ack : string.
  (** The "unknown command" notice, if the policy publishes one. *)
  Variable unknown_notice : string -> option string.

  (** Modelled from the spec: the CommandRouter table of §4.2. *)
Definition handle (st : DeviceState) (c : Command) : DeviceState * list Effect :=
    match c with
    | ShowSettings =>
        (st, publish_settled response_topic (describe (settings st)))
    | ResetCounter =>
        (mkDeviceState (settings st) 0 (lastReading st),
         publish_settled response_topic reset_ack)
    | Reboot => (st, [Restart])
    | ShowVersion => (st, publish_settled response_topic version_string)
    | ShowStatus =>
        (st, publish_settled response_topic
               (status_document (lastReading st)
                  (reportingPeriodSeconds (settings st))))
    | Unknown p =>
        (st, match unknown_notice p with
             | Some n => publish_settled response_topic n
             | None => []
             end)
    end.

Definition on_command (st : DeviceState) (payload : string)
    : DeviceState * list Effect :=
    handle st (parse_command payload).
End Router.

(** * Lemmas on bounded strings *)

Lemma length_append (a b : string) :
  String.length (a ++ b) = (String.length a + String.length b)%nat.
Proof. induction a as [|c a IH]; simpl; [reflexivity | now rewrite IH]. Qed.

Lemma length_substring0 (n : nat) (s : string) :
  String.length (substring 0 n s) = Nat.min n (String.length s).
Proof.
  revert n; induction s as [|c s IH]; intros [|n]; simpl; auto.
Qed.

Lemma substring0_full (n : nat) (s : string) :
  (String.length s <= n)%nat -> substring 0 n s = s.
Proof.
  revert n; induction s as [|c s IH]; intros [|n] H; simpl in *; auto.
  - lia.
  - rewrite IH; auto; lia.
Qed.

Lemma bounded_copy_fits (cap : Z) (s : string) :
  1 <= cap -> cstr_bytes (bounded_copy cap s) <= cap.
Proof.
  intros H; unfold cstr_bytes, bounded_copy.
  rewrite length_substring0. lia.
Qed.

Lemma bounded_copy_id (cap : Z) (s : string) :
  cstr_bytes s <= cap -> bounded_copy cap s = s.
Proof.
  unfold cstr_bytes, bounded_copy; intros H.
  apply substring0_full; lia.
Qed.

Lemma bounded_copy_eq_iff (cap : Z) (s : string) :
  1 <= cap -> bounded_copy cap s = s <-> cstr_bytes s <= cap.
Proof.
  intros Hc; split.
  - intros E. rewrite <- E. now apply bounded_copy_fits.
  - apply bounded_copy_id.
Qed.

Lemma save_fields (s st : Settings) : save s st = truncate_settings s.
Proof. destruct s, st; reflexivity. Qed.

Lemma load_valid ds dp da du sfx per (st : Settings) :
  validityMarker st = VALID_SETTINGS_FLAG -> load ds dp da du sfx per st = st.
Proof. unfold load; intros ->; now rewrite Z.eqb_refl. Qed.

Lemma load_invalid ds dp da du sfx per (st : Settings) :
  validityMarker st <> VALID_SETTINGS_FLAG ->
  load ds dp da du sfx per st = default_settings ds dp da du sfx per.
Proof. unfold load; intros H; now rewrite (proj2 (Z.eqb_neq _ _) H). Qed.

(** A save cut short before its last write leaves an unmarked block
    unmarked: the next [load] yields the defaults. *)
Lemma load_save_interrupted ds dp da du sfx per k (s st : Settings) :
  (k < length (save_writes s))%nat ->
  validityMarker st <> VALID_SETTINGS_FLAG ->
  load ds dp da du sfx per (save_interrupted k s st)
  = default_settings ds dp da du sfx per.
Proof.
  intros Hk Hm; apply load_invalid.
  destruct s, st; simpl in Hk, Hm.
  do 7 (destruct k as [|k]; [exact Hm|]); lia.
Qed.

(** * Claims *)

(** C1 (counterexample): [JSON_STATUS_SIZE] is not the sum of the five
    Settings string capacities plus 50, i.e. it is not 305. *)
Lemma json_status_size_not_settings_sum :
  ~ (JSON_STATUS_SIZE = SSID_SIZE + PASSWORD_SIZE + ADDRESS_SIZE
                        + USERNAME_SIZE + MQTT_CLIENTID_SIZE + 50
     /\ JSON_STATUS_SIZE = 305).
Proof. vm_compute. intros [H _]; discriminate H. Qed.

(** C1 (amended): [JSON_STATUS_SIZE] is the SSID, password and username
    capacities plus the topic buffer size plus 50 bytes of overhead,
    i.e. 400 bytes. *)
Theorem json_status_size_value :
  JSON_STATUS_SIZE = SSID_SIZE + PASSWORD_SIZE + USERNAME_SIZE
                     + MQTT_TOPIC_SIZE + 50
  /\ JSON_STATUS_SIZE = 400.
Proof. split; reflexivity. Qed.

(** C2: the Settings string capacities are SSID 100, password 50, broker
    address 30, username 50 and client id 25, and a saved record keeps
    every string field, with its NUL, within that capacity. *)
Theorem settings_field_capacities :
  SSID_SIZE = 100 /\ PASSWORD_SIZE = 50 /\ ADDRESS_SIZE = 30
  /\ USERNAME_SIZE = 50 /\ MQTT_CLIENTID_SIZE = 25
  /\ (forall s st : Settings,
        let r := save s st in
        cstr_bytes (networkName r) <= SSID_SIZE
        /\ cstr_bytes (networkPassword r) <= PASSWORD_SIZE
        /\ cstr_bytes (brokerAddress r) <= ADDRESS_SIZE
        /\ cstr_bytes (brokerUsername r) <= USERNAME_SIZE
        /\ cstr_bytes (clientIdentifier r) <= MQTT_CLIENTID_SIZE).
Proof.
  do 5 (split; [reflexivity|]).
  intros s st; cbv zeta; rewrite save_fields; simpl.
  repeat split; apply bounded_copy_fits; vm_compute; discriminate.
Qed.

(** C3: the validity marker is 0xDAB0, it fits in two bytes, and [load]
    yields a marked (configured) record exactly when the stored marker is
    that value. *)
Theorem validity_marker_sentinel :
  VALID_SETTINGS_FLAG = 0xDAB0
  /\ 0 <= VALID_SETTINGS_FLAG <= 0xFFFF
  /\ Z.shiftr VALID_SETTINGS_FLAG 16 = 0
  /\ (forall ds dp da du sfx per (st : Settings),
        configured ds dp da du sfx per st = true
        <-> validityMarker st = VALID_SETTINGS_FLAG).
Proof.
  split; [reflexivity|]. split; [vm_compute; split; discriminate|].
  split; [reflexivity|].
  intros ds dp da du sfx per st; unfold configured, load.
  destruct (Z.eqb_spec (validityMarker st) VALID_SETTINGS_FLAG) as [E|E].
  - rewrite E, Z.eqb_refl; tauto.
  - simpl; split; [discriminate | contradiction].
Qed.

(** C4: the recognized payloads are exactly the five case-sensitive
    strings; every other payload is classified [Unknown] and its handling
    leaves the device state (settings and counters) unchanged and does
    not restart the device. *)
Theorem unknown_payload_no_mutation :
  recognized_payloads
  = ["settings"; "resetPulseCounter"; "reboot"; "version"; "status"]
  /\ (forall p, parse_command p = Unknown p <-> ~ In p recognized_payloads)
  /\ (forall rt descr ver stat ack notice st p,
        ~ In p recognized_payloads ->
        fst (on_command rt descr ver stat ack notice st p) = st
        /\ ~ In Restart (snd (on_command rt descr ver stat ack notice st p))).
Proof.
  assert (Hcls : forall p, parse_command p = Unknown p
                           <-> ~ In p recognized_payloads).
  { intros p; unfold parse_command, recognized_payloads; simpl.
    destruct (String.eqb_spec p MQTT_PAYLOAD_SETTINGS_COMMAND);
    [subst; split; [discriminate | tauto]|].
    destruct (String.eqb_spec p MQTT_PAYLOAD_RESET_PULSE_COMMAND);
    [subst; split; [discriminate | tauto]|].
    destruct (String.eqb_spec p MQTT_PAYLOAD_REBOOT_COMMAND);
    [subst; split; [discriminate | tauto]|].
    destruct (String.eqb_spec p MQTT_PAYLOAD_VERSION_COMMAND);
    [subst; split; [discriminate | tauto]|].
    destruct (String.eqb_spec p MQTT_PAYLOAD_STATUS_COMMAND);
    [subst; split; [discriminate | tauto]|].
    split; [intros _ | reflexivity].
    intros [?|[?|[?|[?|[?|[]]]]]]; congruence. }
  split; [reflexivity|]. split; [exact Hcls|].
  intros rt descr ver stat ack notice st p Hp.
  unfold on_command; rewrite (proj2 (Hcls p) Hp); simpl.
  split; [reflexivity|].
  destruct (notice p); simpl; intuition discriminate.
Qed.

(** C5: the topic suffixes are "percent", "value", "period" and
    "command", each appended to the device base topic. *)
Theorem topic_suffix_values :
  MQTT_TOPIC_MOISTURE = "percent" /\ MQTT_TOPIC_READING = "value"
  /\ MQTT_TOPIC_PERIOD = "period" /\ MQTT_TOPIC_COMMAND_REQUEST = "command"
  /\ topic_suffixes = ["percent"; "value"; "period"; "command"]
  /\ (forall base, full_topic base MQTT_TOPIC_COMMAND_REQUEST
                   = base ++ "command").
Proof. repeat split. Qed.

(** C6: [PUBLISH_DELAY] is 400 ms, and in the effects of any command every
    publish is immediately followed by a delay of that length. *)
Theorem publish_followed_by_settle_delay :
  PUBLISH_DELAY = 400
  /\ (forall rt descr ver stat ack notice st p i topic msg,
        nth_error (snd (on_command rt descr ver stat ack notice st p)) i
        = Some (Publish topic msg) ->
        nth_error (snd (on_command rt descr ver stat ack notice st p)) (S i)
        = Some (Delay 400)).
Proof.
  split; [reflexivity|].
  intros rt descr ver stat ack notice st p i topic msg.
  unfold on_command, handle.
  destruct (parse_command p); [| | | | | destruct (notice payload)];
    simpl; destruct i as [|[|i]]; simpl;
    try (destruct i; discriminate); try discriminate; reflexivity.
Qed.

(** C7: the connection result taxonomy has eight codes, -2 .. 5, pairwise
    distinct; success is 0 and every other result is nonzero; each code
    translates back to its result. *)
Theorem mqtt_error_taxonomy :
  map mqtt_code all_mqtt_results = [-2; -1; 0; 1; 2; 3; 4; 5]
  /\ NoDup (map mqtt_code all_mqtt_results)
  /\ (forall r : MqttResult, In r all_mqtt_results)
  /\ mqtt_code Success = 0
  /\ (forall r, mqtt_code r = 0 <-> r = Success)
  /\ (forall r, mqtt_of_code (mqtt_code r) = Some r).
Proof.
  split; [reflexivity|].
  split.
  { vm_compute.
    repeat (constructor; [simpl; intuition discriminate|]); constructor. }
  split; [intros []; simpl; tauto|].
  split; [reflexivity|].
  split.
  - intros []; vm_compute; split; intros H; (reflexivity || discriminate).
  - intros []; reflexivity.
Qed.

(** C8: the default client id is "UltrasonicDetector" followed by the
    device suffix in a 25-byte buffer: the 18-character root and its NUL
    fit, leaving 6 bytes, and the suffix is kept whole exactly when it has
    at most 6 characters. *)
Theorem client_id_root_fits :
  MQTT_CLIENT_ID_ROOT = "UltrasonicDetector"
  /\ String.length MQTT_CLIENT_ID_ROOT = 18%nat
  /\ cstr_bytes MQTT_CLIENT_ID_ROOT <= MQTT_CLIENTID_SIZE
  /\ MQTT_CLIENTID_SIZE - cstr_bytes MQTT_CLIENT_ID_ROOT = 6
  /\ (forall sfx, cstr_bytes (default_client_id sfx) <= MQTT_CLIENTID_SIZE)
  /\ (forall sfx, default_client_id sfx = MQTT_CLIENT_ID_ROOT ++ sfx
                  <-> (String.length sfx <= 6)%nat).
Proof.
  split; [reflexivity|]. split; [reflexivity|].
  split; [vm_compute; discriminate|]. split; [reflexivity|].
  split.
  - intros sfx; apply bounded_copy_fits; vm_compute; discriminate.
  - intros sfx; unfold default_client_id.
    rewrite bounded_copy_eq_iff by (vm_compute; discriminate).
    unfold cstr_bytes; rewrite length_append.
    change (String.length MQTT_CLIENT_ID_ROOT) with 18%nat.
    unfold MQTT_CLIENTID_SIZE; lia.
Qed.

(** C9: [load] right after [save s] yields [s] with every string field
    truncated to its bound and the validity marker set; a block whose
    marker is not the sentinel loads as exactly the defaults, whatever
    its other fields hold. *)
Theorem load_save_roundtrip ds dp da du sfx per (s st st' : Settings)
  (Hbad : validityMarker st' <> VALID_SETTINGS_FLAG) :
  load ds dp da du sfx per (save s st) = truncate_settings s
  /\ validityMarker (load ds dp da du sfx per (save s st)) = VALID_SETTINGS_FLAG
  /\ load ds dp da du sfx per st' = default_settings ds dp da du sfx per.
Proof.
  rewrite save_fields.
  assert (E : load ds dp da du sfx per (truncate_settings s)
              = truncate_settings s) by (apply load_valid; reflexivity).
  rewrite E. split; [reflexivity|]. split; [reflexivity|].
  now apply load_invalid.
Qed.

(** C10: topics live in [MQTT_TOPIC_SIZE] = 150 byte buffers, the longest
    suffix has 7 characters, and every suffix with its NUL fits. *)
Theorem topic_suffixes_fit :
  MQTT_TOPIC_SIZE = 150
  /\ fold_right Nat.max 0%nat (map String.length topic_suffixes) = 7%nat
  /\ Forall (fun x => cstr_bytes x <= MQTT_TOPIC_SIZE) topic_suffixes.
Proof.
  split; [reflexivity|]. split; [reflexivity|].
  repeat constructor; vm_compute; discriminate.
Qed.

(** * Witnesses *)

Lemma unknown_payload_no_mutation_witness :
  ~ In "Settings" recognized_payloads
  /\ fst (on_command "resp" (fun _ => "") "1.0" (fun _ _ => "") "ok"
            (fun _ => None)
            (mkDeviceState (mkSettings VALID_SETTINGS_FLAG "n" "p" "a" "u" "c" 60)
               7 3) "Settings")
     = mkDeviceState (mkSettings VALID_SETTINGS_FLAG "n" "p" "a" "u" "c" 60) 7 3.
Proof.
  assert (H : ~ In "Settings" recognized_payloads)
    by (simpl; intuition discriminate).
  split; [exact H|].
  exact (proj1 (proj2 (proj2 unknown_payload_no_mutation) _ _ _ _ _ _ _ _ H)).
Defined.

Lemma publish_followed_by_settle_delay_witness :
  nth_error (snd (on_command "resp" (fun _ => "") "1.0" (fun _ _ => "") "ok"
                    (fun _ => None)
                    (mkDeviceState
                       (mkSettings VALID_SETTINGS_FLAG "n" "p" "a" "u" "c" 60) 7 3)
                    "status")) 0 = Some (Publish "resp" "")
  /\ nth_error (snd (on_command "resp" (fun _ => "") "1.0" (fun _ _ => "") "ok"
                    (fun _ => None)
                    (mkDeviceState
                       (mkSettings VALID_SETTINGS_FLAG "n" "p" "a" "u" "c" 60) 7 3)
                    "status")) 1 = Some (Delay 400).
Proof.
  assert (H : nth_error (snd (on_command "resp" (fun _ => "") "1.0"
                  (fun _ _ => "") "ok" (fun _ => None)
                  (mkDeviceState
                     (mkSettings VALID_SETTINGS_FLAG "n" "p" "a" "u" "c" 60) 7 3)
                  "status")) 0 = Some (Publish "resp" "")) by reflexivity.
  split; [exact H|].
  exact (proj2 publish_followed_by_settle_delay _ _ _ _ _ _ _ _ _ _ _ H).
Defined.

Lemma load_save_roundtrip_witness :
  validityMarker (mkSettings 0 "x" "" "" "" "" 1) <> VALID_SETTINGS_FLAG
  /\ load "ap" "" "broker" "" "01" 30
       (save (mkSettings 0 "home" "secret" "10.0.0.2" "me" "dev" 60)
          (mkSettings 0 "" "" "" "" "" 1))
     = truncate_settings (mkSettings 0 "home" "secret" "10.0.0.2" "me" "dev" 60).
Proof.
  assert (H : validityMarker (mkSettings 0 "x" "" "" "" "" 1)
              <> VALID_SETTINGS_FLAG) by (vm_compute; discriminate).
  split; [exact H|].
  exact (proj1 (load_save_roundtrip "ap" "" "broker" "" "01" 30
                  (mkSettings 0 "home" "secret" "10.0.0.2" "me" "dev" 60)
                  (mkSettings 0 "" "" "" "" "" 1) _ H)).
Defined.

(** * Further properties of the header's constants *)

(** Every full topic (base topic plus any of the four suffixes) fits in a
    [MQTT_TOPIC_SIZE] buffer with its NUL exactly when the base topic has
    at most 142 characters. *)
Theorem full_topics_fit_iff (base : string) :
  Forall (fun sfx => cstr_bytes (full_topic base sfx) <= MQTT_TOPIC_SIZE)
    topic_suffixes
  <-> (String.length base <= 142)%nat.
Proof.
  unfold topic_suffixes, full_topic, cstr_bytes, MQTT_TOPIC_SIZE.
  rewrite !Forall_cons_iff, !length_append; simpl.
  split.
  - intros [H1 [_ [_ [H4 _]]]]; lia.
  - intros H; repeat split; try lia; constructor.
Qed.

(** The five command payload strings are pairwise distinct, and each is
    classified as its own command. *)
Theorem command_payloads_distinct :
  NoDup recognized_payloads
  /\ map parse_command recognized_payloads
     = [ShowSettings; ResetCounter; Reboot; ShowVersion; ShowStatus].
Proof.
  split; [|reflexivity].
  unfold recognized_payloads.
  repeat (constructor; [simpl; intuition discriminate|]); constructor.
Qed.

(** Blank storage, zeroed (0x0000) or erased (0xFFFF) in the marker's
    two bytes, never passes for a configured record: it loads as the
    defaults. *)
Theorem blank_storage_loads_defaults ds dp da du sfx per (st : Settings)
  (Hblank : validityMarker st = 0 \/ validityMarker st = 0xFFFF) :
  load ds dp da du sfx per st = default_settings ds dp da du sfx per.
Proof.
  apply load_invalid; destruct Hblank as [-> | ->]; vm_compute; discriminate.
Qed.

(** The five string fields of any saved record, each with its NUL, plus
    50 bytes of field-name overhead fit in [JSON_STATUS_SIZE]. *)
Theorem saved_fields_fit_status_document (s st : Settings) :
  let r := save s st in
  cstr_bytes (networkName r) + cstr_bytes (networkPassword r)
  + cstr_bytes (brokerAddress r) + cstr_bytes (brokerUsername r)
  + cstr_bytes (clientIdentifier r) + 50 <= JSON_STATUS_SIZE.
Proof.
  cbv zeta; rewrite save_fields; simpl.
  pose proof (bounded_copy_fits SSID_SIZE (networkName s)).
  pose proof (bounded_copy_fits PASSWORD_SIZE (networkPassword s)).
  pose proof (bounded_copy_fits ADDRESS_SIZE (brokerAddress s)).
  pose proof (bounded_copy_fits USERNAME_SIZE (brokerUsername s)).
  pose proof (bounded_copy_fits MQTT_CLIENTID_SIZE (clientIdentifier s)).
  unfold JSON_STATUS_SIZE, SSID_SIZE, PASSWORD_SIZE, ADDRESS_SIZE,
    USERNAME_SIZE, MQTT_CLIENTID_SIZE, MQTT_TOPIC_SIZE in *.
  lia.
Qed.

Lemma full_topics_fit_iff_witness :
  Forall (fun sfx => cstr_bytes (full_topic "home/sensor1/" sfx) <= MQTT_TOPIC_SIZE)
    topic_suffixes.
Proof. apply (proj2 (full_topics_fit_iff "home/sensor1/")); simpl; lia. Defined.

Lemma blank_storage_loads_defaults_witness :
  load "ap" "" "broker" "" "01" 30 (mkSettings 0xFFFF "x" "y" "z" "u" "c" 5)
  = default_settings "ap" "" "broker" "" "01" 30.
Proof.
  apply (blank_storage_loads_defaults "ap" "" "broker" "" "01" 30
           (mkSettings 0xFFFF "x" "y" "z" "u" "c" 5)).
  right; reflexivity.
Defined.

Lemma load_save_interrupted_witness :
  load "ap" "" "broker" "" "01" 30
    (save_interrupted 6 (mkSettings 0 "home" "secret" "h" "me" "dev" 60)
       (mkSettings 0 "" "" "" "" "" 1))
  = default_settings "ap" "" "broker" "" "01" 30.
Proof.
  apply load_save_interrupted; [simpl; lia | vm_compute; discriminate].
Defined.
